(** * A shallow embedding of the SharePoint schema generator (src/app.py, src/main.py)

    The two entry points share [get_column_type], [fetch_sharepoint_lists],
    [fetch_columns] and [generate_uml_graph] verbatim; they differ only in
    the constant [LISTS_TO_IGNORE] (main.py adds "Web Template Extensions").

    Modelling conventions:
    - Values returned by [response.json()] are [json] values.  JSON numbers
      are modelled as integers ([Z]).
    - Python strings are modelled as Rocq strings holding their UTF-8 bytes;
      equality of UTF-8 encodings coincides with equality of code points, and
      the only pattern the code matches, [".*x003a.*"], is ASCII.
    - A Python dict is an association list in insertion order; lookups take
      the first entry whose key is equal (Python [==]) to the requested key.
    - An uncaught Python exception is [Err]; the HTTP layer ([fetch_data]) is
      the Metadata Source, given as a function returning [None] on failure. *)

From Stdlib Require Import String Ascii List ZArith Bool Lia.
Import ListNotations.
Open Scope string_scope.
Open Scope list_scope.
Set Warnings "-register-all".

(** ** JSON values and Python semantics over them *)

Inductive json : Type :=
| JNull : json
| JBool (b : bool) : json
| JNum (z : Z) : json
| JStr (s : string) : json
| JList (l : list json) : json
| JObj (kv : list (string * json)) : json.

(** Lookup of a string key in a JSON object ([key in d], [d[key]], [d.get]). *)
Fixpoint obj_lookup (k : string) (kv : list (string * json)) : option json :=
  match kv with
  | [] => None
  | (k', v) :: kv' => if String.eqb k k' then Some v else obj_lookup k kv'
  end.

Definition obj_has (k : string) (kv : list (string * json)) : bool :=
  match obj_lookup k kv with Some _ => true | None => false end.

(** Python [==] on JSON values: booleans compare as the integers 0/1,
    lists elementwise, dicts irrespective of key order. *)
Fixpoint py_eq (a b : json) {struct a} : bool :=
  match a, b with
  | JNull, JNull => true
  | JBool x, JBool y => Bool.eqb x y
  | JBool x, JNum m => Z.eqb (Z.b2z x) m
  | JNum n, JBool y => Z.eqb n (Z.b2z y)
  | JNum n, JNum m => Z.eqb n m
  | JStr s, JStr t => String.eqb s t
  | JList xs, JList ys =>
      (fix go (xs ys : list json) : bool :=
         match xs, ys with
         | [], [] => true
         | x :: xs', y :: ys' => py_eq x y && go xs' ys'
         | _, _ => false
         end) xs ys
  | JObj xs, JObj ys =>
      Nat.eqb (length xs) (length ys) &&
      (fix go (xs : list (string * json)) : bool :=
         match xs with
         | [] => true
         | (k, v) :: xs' =>
             match obj_lookup k ys with
             | Some w => py_eq v w
             | None => false
             end && go xs'
         end) xs
  | _, _ => false
  end.

(** Truthiness ([if x:], [not x]). *)
Definition truthy (j : json) : bool :=
  match j with
  | JNull => false
  | JBool b => b
  | JNum z => negb (Z.eqb z 0)
  | JStr s => negb (String.eqb s "")
  | JList l => match l with [] => false | _ => true end
  | JObj kv => match kv with [] => false | _ => true end
  end.

(** [x in lst] for a Python list of strings. *)
Definition in_str_list (x : json) (lst : list string) : bool :=
  existsb (fun s => py_eq x (JStr s)) lst.
Arguments in_str_list : simpl never.

(** Python exceptions raised by the modelled code. *)
Inductive py_exc : Type := TypeError | AttributeError.

Inductive result (A : Type) : Type :=
| Ok (a : A) : result A
| Err (e : py_exc) : result A.
Arguments Ok {A} a.
Arguments Err {A} e.

Definition bind {A B} (r : result A) (f : A -> result B) : result B :=
  match r with Ok a => f a | Err e => Err e end.

Notation "x <- r ;; k" := (bind r (fun x => k))
  (at level 61, r at next level, right associativity).

(** Substring test on byte strings. *)
Fixpoint contains (pat s : string) : bool :=
  String.prefix pat s ||
  match s with
  | EmptyString => false
  | String _ s' => contains pat s'
  end.

(** [needle in haystack] for two strings. *)
Definition str_in (needle hay : string) : bool := contains needle hay.

(** [needle in container] for the string ["value"] against any JSON value:
    key membership for a dict, element equality for a list, substring for a
    string, and a [TypeError] for [None], numbers and booleans. *)
Definition py_contains_str (needle : string) (c : json) : result bool :=
  match c with
  | JObj kv => Ok (obj_has needle kv)
  | JList l => Ok (existsb (fun x => py_eq x (JStr needle)) l)
  | JStr s => Ok (str_in needle s)
  | _ => Err TypeError
  end.

(** [c['value']] once ['value' in c] holds: only a dict can be indexed by a
    string. *)
Definition py_getitem_str (c : json) (k : string) : result json :=
  match c with
  | JObj kv => match obj_lookup k kv with Some v => Ok v | None => Err TypeError end
  | _ => Err TypeError
  end.

(** [for x in c]: a list yields its elements, a dict its keys, a string its
    characters; anything else raises [TypeError]. *)
Fixpoint chars (s : string) : list json :=
  match s with
  | EmptyString => []
  | String a s' => JStr (String a EmptyString) :: chars s'
  end.

Definition py_iter (c : json) : result (list json) :=
  match c with
  | JList l => Ok l
  | JObj kv => Ok (map (fun p => JStr (fst p)) kv)
  | JStr s => Ok (chars s)
  | _ => Err TypeError
  end.

(** ** Python dicts keyed by JSON values ([lists_dict]) *)

Definition pydict := list (json * json).

Definition hashable (k : json) : bool :=
  match k with JList _ | JObj _ => false | _ => true end.

Fixpoint dict_get (d : pydict) (k : json) : option json :=
  match d with
  | [] => None
  | (k', v) :: d' => if py_eq k' k then Some v else dict_get d' k
  end.

(** [d[k] = v] for a hashable key: an existing equal key keeps its position
    (and its key object) and gets the new value; a new key is appended. *)
Fixpoint dict_set_aux (d : pydict) (k v : json) : pydict :=
  match d with
  | [] => [(k, v)]
  | (k', v') :: d' =>
      if py_eq k' k then (k', v) :: d' else (k', v') :: dict_set_aux d' k v
  end.

Definition dict_set (d : pydict) (k v : json) : result pydict :=
  if hashable k then Ok (dict_set_aux d k v) else Err TypeError.

(** ** Constants *)

Inductive entry : Type := AppPy | MainPy.

Definition LISTS_TO_IGNORE (e : entry) : list string :=
  match e with
  | AppPy => ["Documents"; "Liens de partage"; "Extensions de modèle web"; "User"]
  | MainPy => ["Documents"; "Liens de partage"; "Extensions de modèle web"; "User";
               "Web Template Extensions"]
  end.

Definition COLUMNS_TO_IGNORE : list string :=
  ["_ColorTag"; "ComplianceAssetId"; "_UIVersionString"; "Attachments";
   "Edit"; "LinkTitleNoMenu"; "LinkTitle"; "DocIcon"; "ItemChildCount";
   "FolderChildCount"; "_ComplianceFlags"; "_ComplianceTag";
   "_ComplianceTagWrittenTime"; "_ComplianceTagUserId"; "_IsRecord";
   "AppAuthor"; "AppEditor"; "ID"; "ContentType"].

(** [re.match(".*x003a.*", name)] for a string [name]: [.] does not match a
    newline and [re.match] anchors at the start, so the pattern matches iff
    ["x003a"] occurs in the part of [name] before its first newline. *)
Fixpoint first_line (s : string) : string :=
  match s with
  | EmptyString => EmptyString
  | String c s' => if Ascii.eqb c "010"%char then EmptyString else String c (first_line s')
  end.

Definition COLUMN_PATTERN_TO_IGNORE_matches (name : string) : bool :=
  contains "x003a" (first_line name).

(** ** Field Classifier: [get_column_type] *)

Record type_details : Type := {
  td_type : string;
  td_details : json
}.

(** [type_mappings], in its insertion (= iteration) order. *)
Definition type_mappings : list (string * string) :=
  [("text", "text"); ("lookup", "lookup"); ("dateTime", "dateTime");
   ("number", "number"); ("choice", "choice"); ("boolean", "boolean");
   ("person", "person"); ("calculated", "calculated")].

Fixpoint get_column_type_loop (m : list (string * string)) (column : list (string * json))
  : type_details :=
  match m with
  | [] => {| td_type := "unknown"; td_details := JObj [] |}
  | (key, value) :: m' =>
      match obj_lookup key column with
      | Some v => {| td_type := value; td_details := v |}
      | None => get_column_type_loop m' column
      end
  end.

Definition get_column_type (column : list (string * json)) : type_details :=
  get_column_type_loop type_mappings column.

(** ** Schema Fetcher: [fetch_sharepoint_lists] *)

(** [isinstance(item, dict) and 'displayName' in item and 'id' in item],
    returning [(item['displayName'], item['id'])]. *)
Definition list_item_fields (item : json) : option (json * json) :=
  match item with
  | JObj kv =>
      match obj_lookup "displayName" kv, obj_lookup "id" kv with
      | Some dn, Some i => Some (dn, i)
      | _, _ => None
      end
  | _ => None
  end.

(** The loop over [lists_data['value']]; the second component of the result
    lists the items reported by [logger.warning], in order. *)
Fixpoint process_lists (ign : list string) (lists_dict : pydict) (items : list json)
  : result (pydict * list json) :=
  match items with
  | [] => Ok (lists_dict, [])
  | item :: rest =>
      match list_item_fields item with
      | Some (dn, i) =>
          if negb (in_str_list dn ign) then
            d' <- dict_set lists_dict dn i ;;
            process_lists ign d' rest
          else process_lists ign lists_dict rest
      | None =>
          r <- process_lists ign lists_dict rest ;;
          Ok (fst r, item :: snd r)
      end
  end.

(** [fetch_sharepoint_lists]: [lists_data] is [fetch_data(endpoint, headers)],
    [None] when the request failed.  The headers and endpoint it also returns
    are not modelled.  An empty map is returned when the listing failed or has
    no ['value'] key (logged as an error). *)
Definition fetch_sharepoint_lists (e : entry) (lists_data : option json)
  : result (pydict * list json) :=
  match lists_data with
  | None => Ok ([], [])
  | Some data =>
      if negb (truthy data) then Ok ([], []) else
      has <- py_contains_str "value" data ;;
      if negb has then Ok ([], []) else
      v <- py_getitem_str data "value" ;;
      items <- py_iter v ;;
      process_lists (LISTS_TO_IGNORE e) [] items
  end.

(** ** Schema Fetcher: [fetch_columns] *)

Record column : Type := {
  col_name : string;
  col_id : json;
  col_required : json;
  col_type_details : type_details
}.

(** [col.get(k, default)] *)
Definition obj_get (kv : list (string * json)) (k : string) (default : json) : json :=
  match obj_lookup k kv with Some v => v | None => default end.

(** The loop over [columns_data['value']].  [col.get] raises
    [AttributeError] on a non-dict; [name not in COLUMNS_TO_IGNORE] is tested
    first, and [re.match] raises [TypeError] on a non-string name. *)
Fixpoint process_columns (cols : list json) : result (list column) :=
  match cols with
  | [] => Ok []
  | col :: rest =>
      match col with
      | JObj kv =>
          let name := obj_get kv "name" (JStr "") in
          if in_str_list name COLUMNS_TO_IGNORE then process_columns rest else
          match name with
          | JStr s =>
              if COLUMN_PATTERN_TO_IGNORE_matches s then process_columns rest else
              cs <- process_columns rest ;;
              Ok ({| col_name := s;
                     col_id := obj_get kv "id" JNull;
                     col_required := obj_get kv "required" (JBool false);
                     col_type_details := get_column_type kv |} :: cs)
          | _ => Err TypeError
          end
      | _ => Err AttributeError
      end
  end.

(** [fetch_columns]: [columns_data] is the field-listing call for one list,
    [None] when it failed; failure or a payload without ['value'] yields the
    empty list (logged as an error). *)
Definition fetch_columns (columns_data : option json) : result (list column) :=
  match columns_data with
  | None => Ok []
  | Some data =>
      if negb (truthy data) then Ok [] else
      has <- py_contains_str "value" data ;;
      if negb has then Ok [] else
      v <- py_getitem_str data "value" ;;
      items <- py_iter v ;;
      process_columns items
  end.

(** ** Relationship Resolver and Graph Assembler: [generate_uml_graph] *)

(** A node: the list name and the label table, i.e. the header row holding the
    name followed by one [(column_name, column_type)] row per column.  The
    HTML label string is a fixed rendering of exactly these rows. *)
Record node : Type := {
  node_name : json;
  node_rows : list (string * string)
}.

Record edge : Type := {
  edge_src : json;
  edge_dst : json;
  edge_label : string
}.

Record graph : Type := {
  g_nodes : list node;
  g_edges : list edge
}.

(** [(list_name, list_id_lookup, column_name)] *)
Record relationship : Type := {
  rel_src : json;
  rel_target_id : json;
  rel_field : string
}.

Definition column_row (c : column) : string * string :=
  (col_name c, td_type (col_type_details c)).

(** The inner loop over the columns of one list, collecting relationships.
    [.get("details", {})] is present; [.get("listId")] raises
    [AttributeError] when the details are not a dict. *)
Fixpoint column_relationships (list_name : json) (cols : list column)
  : result (list relationship) :=
  match cols with
  | [] => Ok []
  | c :: cs =>
      let td := col_type_details c in
      if String.eqb (td_type td) "lookup" then
        match td_details td with
        | JObj kv =>
            let list_id_lookup := obj_get kv "listId" JNull in
            rs <- column_relationships list_name cs ;;
            if truthy list_id_lookup then
              Ok ({| rel_src := list_name; rel_target_id := list_id_lookup;
                     rel_field := col_name c |} :: rs)
            else Ok rs
        | _ => Err AttributeError
        end
      else column_relationships list_name cs
  end.

(** The first loop of [generate_uml_graph]: one node per entry of
    [lists_dict], in its order, and the relationships in discovery order.
    [fetch] is the Metadata Source's field-listing call for a list id. *)
Fixpoint build_tables (fetch : json -> option json) (d : pydict)
  : result (list node * list relationship) :=
  match d with
  | [] => Ok ([], [])
  | (list_name, list_id) :: d' =>
      columns <- fetch_columns (fetch list_id) ;;
      rels <- column_relationships list_name columns ;;
      rest <- build_tables fetch d' ;;
      Ok ({| node_name := list_name; node_rows := map column_row columns |} :: fst rest,
          rels ++ snd rest)
  end.

(** The lookup of the target table: first name whose id equals the target. *)
Fixpoint find_target (d : pydict) (target_list_id : json) : option json :=
  match d with
  | [] => None
  | (table_name, table_id) :: d' =>
      if py_eq table_id target_list_id then Some table_name else find_target d' target_list_id
  end.

(** The second loop of [generate_uml_graph]: [if target_table:] then an edge. *)
Fixpoint resolve_edges (d : pydict) (rels : list relationship) : list edge :=
  match rels with
  | [] => []
  | r :: rs =>
      match find_target d (rel_target_id r) with
      | Some target_table =>
          if truthy target_table then
            {| edge_src := rel_src r; edge_dst := target_table; edge_label := rel_field r |}
              :: resolve_edges d rs
          else resolve_edges d rs
      | None => resolve_edges d rs
      end
  end.

(** [generate_uml_graph] up to [graph.pipe()] (the Graph Renderer). *)
Definition generate_uml_graph (fetch : json -> option json) (lists_dict : pydict)
  : result graph :=
  t <- build_tables fetch lists_dict ;;
  Ok {| g_nodes := fst t; g_edges := resolve_edges lists_dict (snd t) |}.

(** The pipeline of [main] (main.py) and of the [index]/[view_results] routes
    (app.py): [None] when no list was found, which stops the run.  In app.py
    the map passes through the Flask session in between; that round trip is
    modelled separately, with the routes below. *)
Definition pipeline (e : entry) (lists_data : option json) (fetch : json -> option json)
  : result (option graph) :=
  r <- fetch_sharepoint_lists e lists_data ;;
  match fst r with
  | [] => Ok None
  | lists_dict =>
      g <- generate_uml_graph fetch lists_dict ;;
      Ok (Some g)
  end.

(** ** HTTP layer and headers *)

Definition GRAPH_API_BASE_URL : string := "https://graph.microsoft.com/v1.0".

Definition headers := list (string * string).

Definition create_headers (token : string) : headers :=
  [("Authorization", ("Bearer " ++ token)%string);
   ("Accept", "application/json;odata.metadata=minimal;odata.streaming=true;IEEE754Compatible=false;charset=utf-8");
   ("Content-Type", "application/json")].

(** The outcome of [requests.get(url, headers=headers)]: a response with its
    status code and its body decoded by [response.json()] ([None] when the
    body is not JSON), or a transport failure (connection error, timeout). *)
Inductive http_outcome : Type :=
| HttpResponse (status : Z) (body : option json)
| HttpFailure.

(** [fetch_data]: [raise_for_status()] raises for a status in [400, 600);
    that, a transport failure and an undecodable body (a
    [requests.exceptions.JSONDecodeError], itself a [RequestException]) are
    all caught, logged, and give [None]. *)
Definition fetch_data (o : http_outcome) : option json :=
  match o with
  | HttpFailure => None
  | HttpResponse status body =>
      if (400 <=? status)%Z && (status <? 600)%Z then None else body
  end.

Definition lists_endpoint (site_id : string) : string :=
  (GRAPH_API_BASE_URL ++ "/sites/" ++ site_id ++ "/lists")%string.

(** [fetch_sharepoint_lists(token, site_id)] with its HTTP call: [http url
    headers] is the GET of [url].  It returns the map, the headers and the
    endpoint (the logged warnings are dropped). *)
Definition fetch_sharepoint_lists_call (e : entry) (http : string -> headers -> http_outcome)
  (token site_id : string) : result (pydict * headers * string) :=
  let endpoint := lists_endpoint site_id in
  let hdrs := create_headers token in
  r <- fetch_sharepoint_lists e (fetch_data (http endpoint hdrs)) ;;
  Ok (fst r, hdrs, endpoint).

(** The field-listing call of [fetch_columns(list_id, endpoint, headers)]:
    [cols_http endpoint headers list_id] is the GET of
    [f"{endpoint}/{list_id}/columns"]. *)
Definition columns_source (cols_http : string -> headers -> json -> http_outcome)
  (endpoint : string) (hdrs : headers) : json -> option json :=
  fun list_id => fetch_data (cols_http endpoint hdrs list_id).

(** ** [main] (main.py) *)

(** What [main] does: stop after logging "No SharePoint lists found", write
    the rendered graph to graph/uml_graph.png, or raise. *)
Inductive main_outcome : Type :=
| MainNoLists
| MainWrote (g : graph)
| MainRaised (e : py_exc).

Definition main_py (http : string -> headers -> http_outcome)
  (cols_http : string -> headers -> json -> http_outcome) (token site_id : string)
  : main_outcome :=
  match fetch_sharepoint_lists_call MainPy http token site_id with
  | Err ex => MainRaised ex
  | Ok (lists_dict, hdrs, endpoint) =>
      match lists_dict with
      | [] => MainNoLists
      | _ =>
          match generate_uml_graph (columns_source cols_http endpoint hdrs) lists_dict with
          | Ok g => MainWrote g
          | Err ex => MainRaised ex
          end
      end
  end.

(** ** Flask routes (app.py) *)

(** The session as [index] leaves it: the three values [view_results] and
    [view_schema] read back ([lists_dict], [headers], [endpoint]) are always
    written together, and the signed cookie cannot be altered by the client,
    so they are kept as one optional triple. *)
Record session : Type := {
  s_graph_input : option (pydict * headers * string);
  s_token : option string;
  s_site_id : option string
}.

(** [flash('...', 'error')] with a fixed text, or [flash(f'Error: {str(e)}')]. *)
Inductive flash : Type :=
| FlashText (msg : string)
| FlashException (e : py_exc).

Record app_state : Type := {
  st_session : session;
  st_flashes : list flash
}.

Inductive response : Type :=
| RenderIndex
| RedirectTo (endpoint : string)
| RenderResults (graph_path : string) (g : graph)
| SendPng (g : graph)
| BadRequest
| InternalError (e : py_exc).

Definition add_flash (st : app_state) (f : flash) : app_state :=
  {| st_session := st_session st; st_flashes := st_flashes st ++ [f] |}.

(** [request.form[key]]: the first value sent under [key]; a missing key
    raises [BadRequestKeyError], answered with 400. *)
Fixpoint form_get (form : list (string * string)) (key : string) : option string :=
  match form with
  | [] => None
  | (k, v) :: form' => if String.eqb k key then Some v else form_get form' key
  end.

Section Routes.

(** [codec] is the round trip of [lists_dict] through the session cookie
    (Flask's JSON session serializer), between the request that stores it and
    the one that reads it; the routes hold for any such round trip. *)
Variable codec : pydict -> pydict.
Variable http : string -> headers -> http_outcome.
Variable cols_http : string -> headers -> json -> http_outcome.

(** [index] on POST; the two [request.form] reads are outside the [try]. *)
Definition index_post (form : list (string * string)) (st : app_state) : app_state * response :=
  match form_get form "token", form_get form "site_id" with
  | Some token, Some site_id =>
      match fetch_sharepoint_lists_call AppPy http token site_id with
      | Err ex => (add_flash st (FlashException ex), RedirectTo "index")
      | Ok (lists_dict, hdrs, endpoint) =>
          match lists_dict with
          | [] => (add_flash st (FlashText "No SharePoint lists found or authentication failed."),
                   RedirectTo "index")
          | _ => ({| st_session := {| s_graph_input := Some (codec lists_dict, hdrs, endpoint);
                                      s_token := Some token; s_site_id := Some site_id |};
                     st_flashes := st_flashes st |},
                  RedirectTo "view_results")
          end
      end
  | _, _ => (st, BadRequest)
  end.



End Routes.

(** The target list id a column contributes in [generate_uml_graph]:
    [type_details.details.get("listId")] when the details are a dict. *)
Definition lookup_list_id (c : column) : json :=
  match td_details (col_type_details c) with
  | JObj kv => obj_get kv "listId" JNull
  | _ => JNull
  end.

(** The fixed classifier order as the specification states it. *)
Definition spec_classifier_order : list string :=
  ["text"; "lookup"; "dateTime"; "number"; "choice"; "boolean"; "person"; "calculated"].

(** ** Sample inputs *)

Definition obj_value (items : list json) : option json := Some (JObj [("value", JList items)]).

Definition list_item (name id : string) : json :=
  JObj [("id", JStr id); ("displayName", JStr name)].

Definition text_field (name : string) : json :=
  JObj [("name", JStr name); ("text", JObj [])].

Definition lookup_field (name target : string) : json :=
  JObj [("name", JStr name); ("lookup", JObj [("listId", JStr target)])].

(** Scenario A/D source: [Orders] has two lookups, to [Customers] and [Items]. *)
Definition scenario_fetch (list_id : json) : option json :=
  match list_id with
  | JStr "o" => obj_value [text_field "Title"; lookup_field "CustomerRef" "c";
                           lookup_field "ItemRef" "i"; text_field "ID";
                           text_field "Created_x003a_By"]
  | JStr "c" => obj_value [text_field "Name"]
  | _ => None
  end.

Definition scenario_lists : option json :=
  obj_value [list_item "Orders" "o"; list_item "Documents" "doc";
             list_item "Customers" "c"; list_item "Items" "i"; JStr "junk"].

Definition scenario_dict : pydict :=
  [(JStr "Orders", JStr "o"); (JStr "Customers", JStr "c"); (JStr "Items", JStr "i")].

Definition scenario_graph : graph :=
  {| g_nodes :=
       [{| node_name := JStr "Orders";
           node_rows := [("Title", "text"); ("CustomerRef", "lookup"); ("ItemRef", "lookup")] |};
        {| node_name := JStr "Customers"; node_rows := [("Name", "text")] |};
        {| node_name := JStr "Items"; node_rows := [] |}];
     g_edges :=
       [{| edge_src := JStr "Orders"; edge_dst := JStr "Customers"; edge_label := "CustomerRef" |};
        {| edge_src := JStr "Orders"; edge_dst := JStr "Items"; edge_label := "ItemRef" |}] |}.

(** A source in which [Orders] also has a lookup to a list id that is not
    retained. *)
Definition dangling_fetch (list_id : json) : option json :=
  match list_id with
  | JStr "o" => obj_value [lookup_field "CustomerRef" "c"; lookup_field "GhostRef" "gone"]
  | JStr "c" => obj_value [text_field "Name"]
  | _ => None
  end.

Definition dangling_nodes : list node :=
  [{| node_name := JStr "Orders"; node_rows := [("CustomerRef", "lookup"); ("GhostRef", "lookup")] |};
   {| node_name := JStr "Customers"; node_rows := [("Name", "text")] |};
   {| node_name := JStr "Items"; node_rows := [] |}].

Definition customer_rel : relationship :=
  {| rel_src := JStr "Orders"; rel_target_id := JStr "c"; rel_field := "CustomerRef" |}.

Definition ghost_rel : relationship :=
  {| rel_src := JStr "Orders"; rel_target_id := JStr "gone"; rel_field := "GhostRef" |}.

(** Field-listing outcomes that [fetch_columns] turns into the empty list:
    a failed call, or a JSON object without a ['value'] key. *)
Definition field_listing_failed (o : option json) : Prop :=
  o = None \/ exists kv, o = Some (JObj kv) /\ obj_has "value" kv = false.

(** [scenario_fetch] with the field-listing call of [Customers] failing. *)
Definition customers_down_fetch (list_id : json) : option json :=
  if py_eq list_id (JStr "c") then None else scenario_fetch list_id.

(** Whether [fetch_sharepoint_lists] takes an item of the listing into the
    map (rather than logging it as a warning). *)
Definition list_item_ok (item : json) : bool :=
  match list_item_fields item with Some _ => true | None => false end.

(** A field descriptor without a ["name"] key. *)
Definition unnamed_text_field : list (string * json) := [("text", JObj [])].

(** A map whose second list has the empty display name. *)
Definition empty_name_dict : pydict :=
  [(JStr "Orders", JStr "o"); (JStr "", JStr "c")].



Example scenario_run :
  pipeline AppPy scenario_lists scenario_fetch = Ok (Some scenario_graph).
Proof. reflexivity. Qed.

Example scenario_generate :
  generate_uml_graph scenario_fetch scenario_dict = Ok scenario_graph.
Proof. reflexivity. Qed.

Example customers_down_run :
  generate_uml_graph customers_down_fetch scenario_dict =
  Ok {| g_nodes := [{| node_name := JStr "Orders";
                       node_rows := [("Title", "text"); ("CustomerRef", "lookup");
                                     ("ItemRef", "lookup")] |};
                    {| node_name := JStr "Customers"; node_rows := [] |};
                    {| node_name := JStr "Items"; node_rows := [] |}];
        g_edges := g_edges scenario_graph |}.
Proof. reflexivity. Qed.

Example scenario_warnings :
  fetch_sharepoint_lists AppPy scenario_lists =
  Ok (scenario_dict, [JStr "junk"]).
Proof. reflexivity. Qed.

Example pattern_newline :
  COLUMN_PATTERN_TO_IGNORE_matches "a_x003a_b" = true /\
  COLUMN_PATTERN_TO_IGNORE_matches (String "010"%char "x003a") = false.
Proof. split; reflexivity. Qed.

(** ** Properties *)

Lemma type_mappings_spec_order :
  type_mappings = map (fun k => (k, k)) spec_classifier_order.
Proof. reflexivity. Qed.

Lemma obj_has_false (k : string) (kv : list (string * json)) :
  obj_has k kv = false <-> obj_lookup k kv = None.
Proof. unfold obj_has; destruct (obj_lookup k kv); split; congruence. Qed.

Lemma get_column_type_loop_nth (m : list (string * string)) (column : list (string * json))
  (i : nat) (key value : string) (v : json) :
  nth_error m i = Some (key, value) ->
  obj_lookup key column = Some v ->
  (forall j p, j < i -> nth_error m j = Some p -> obj_lookup (fst p) column = None) ->
  get_column_type_loop m column = {| td_type := value; td_details := v |}.
Proof.
  revert i. induction m as [| [k0 v0] m IH]; intros i Hnth Hv Hbefore.
  - destruct i; discriminate.
  - destruct i as [| i]; simpl in *.
    + injection Hnth as -> ->. rewrite Hv. reflexivity.
    + assert (H0 : obj_lookup k0 column = None)
        by (apply (Hbefore 0 (k0, v0)); simpl; auto; lia).
      rewrite H0. apply (IH i); auto.
      intros j p Hj Hp. apply (Hbefore (S j)); simpl; auto; lia.
Qed.

Lemma get_column_type_loop_none (m : list (string * string)) (column : list (string * json)) :
  (forall p, In p m -> obj_lookup (fst p) column = None) ->
  get_column_type_loop m column = {| td_type := "unknown"; td_details := JObj [] |}.
Proof.
  induction m as [| [k0 v0] m IH]; intros H; simpl; auto.
  rewrite (H (k0, v0) (or_introl eq_refl) : obj_lookup k0 column = None). apply IH. intros p Hp; apply H; right; auto.
Qed.

(** C1: for a field descriptor carrying more than one classifier key, the
    classifier returns the tag of the earliest present key in the order
    text, lookup, dateTime, number, choice, boolean, person, calculated,
    with the descriptor's value at that key as details. *)
Theorem get_column_type_earliest_key (column : list (string * json)) (i : nat) (k : string)
  (v : json) :
  1 < length (filter (fun key => obj_has key column) spec_classifier_order) ->
  nth_error spec_classifier_order i = Some k ->
  obj_lookup k column = Some v ->
  (forall j k', j < i -> nth_error spec_classifier_order j = Some k' -> obj_has k' column = false) ->
  get_column_type column = {| td_type := k; td_details := v |}.
Proof.
  intros _ Hk Hv Hbefore.
  unfold get_column_type. rewrite type_mappings_spec_order.
  apply (get_column_type_loop_nth _ _ i k k v); auto.
  - rewrite nth_error_map, Hk. reflexivity.
  - intros j p Hj Hp. rewrite nth_error_map in Hp.
    destruct (nth_error spec_classifier_order j) as [k'|] eqn:E; [|discriminate].
    injection Hp as <-. apply obj_has_false. apply (Hbefore j); auto.
Qed.

Lemma get_column_type_earliest_key_witness :
  get_column_type [("name", JStr "Qty"); ("person", JObj []); ("number", JNum 3)] =
  {| td_type := "number"; td_details := JNum 3 |}.
Proof.
  apply (get_column_type_earliest_key _ 3 "number" (JNum 3)).
  - vm_compute. lia.
  - reflexivity.
  - reflexivity.
  - intros j k' Hj Hn.
    do 3 (destruct j as [| j]; [injection Hn as <-; reflexivity |]). lia.
Defined.

(** C9: a descriptor holding none of the eight classifier keys is classified
    [unknown] with empty details; [get_column_type] is a total function (it
    returns a [type_details], with no error outcome). *)
Theorem get_column_type_no_key (column : list (string * json)) :
  (forall k, In k spec_classifier_order -> obj_has k column = false) ->
  get_column_type column = {| td_type := "unknown"; td_details := JObj [] |}.
Proof.
  intros H. unfold get_column_type. apply get_column_type_loop_none.
  rewrite type_mappings_spec_order. intros p Hp.
  apply in_map_iff in Hp. destruct Hp as [k [<- Hk]].
  apply obj_has_false. apply H; auto.
Qed.

Lemma get_column_type_no_key_witness :
  get_column_type [("name", JStr "Notes"); ("required", JBool true)] =
  {| td_type := "unknown"; td_details := JObj [] |}.
Proof.
  apply get_column_type_no_key.
  intros k Hk. simpl in Hk.
  repeat (destruct Hk as [<- | Hk]; [reflexivity |]). contradiction.
Defined.

(** *** Facts about the building blocks *)

Lemma py_eq_str (s t : string) : py_eq (JStr s) (JStr t) = String.eqb s t.
Proof. reflexivity. Qed.

Lemma in_str_list_str (s : string) (lst : list string) :
  in_str_list (JStr s) lst = false -> ~ In s lst.
Proof.
  unfold in_str_list. intros H Hin.
  assert (existsb (fun s' => py_eq (JStr s) (JStr s')) lst = true) as Hc.
  { apply existsb_exists. exists s. split; auto. rewrite py_eq_str. apply String.eqb_refl. }
  congruence.
Qed.

Lemma bind_ok {A B} (r : result A) (f : A -> result B) (b : B) :
  bind r f = Ok b -> exists a, r = Ok a /\ f a = Ok b.
Proof. destruct r as [a | e]; simpl; [eauto | discriminate]. Qed.

Ltac inv_bind H :=
  let a := fresh "a" in
  let Ha := fresh "Ha" in
  apply bind_ok in H; destruct H as [a [Ha H]].

Lemma dict_set_aux_keys (d : pydict) (k v : json) (x : json) :
  In x (map fst (dict_set_aux d k v)) -> In x (map fst d) \/ x = k.
Proof.
  induction d as [| [k' v'] d IH]; simpl.
  - intros [<- | []]. auto.
  - destruct (py_eq k' k); simpl.
    + intros [<- | H]; auto.
    + intros [<- | H]; auto. destruct (IH H); auto.
Qed.

Lemma process_lists_keys (ign : list string) (d : pydict) (items : list json)
  (d' : pydict) (w : list json) :
  process_lists ign d items = Ok (d', w) ->
  (forall k, In k (map fst d) -> in_str_list k ign = false) ->
  forall k, In k (map fst d') -> in_str_list k ign = false.
Proof.
  revert d w. induction items as [| item items IH]; intros d w H Hd; simpl in H.
  - injection H as <- <-. auto.
  - destruct (list_item_fields item) as [[dn i] |].
    + destruct (in_str_list dn ign) eqn:Eig; simpl in H.
      * eapply IH; eauto.
      * inv_bind H. unfold dict_set in Ha.
        destruct (hashable dn); [injection Ha as <- | discriminate].
        eapply IH; eauto.
        intros k Hk. destruct (dict_set_aux_keys _ _ _ _ Hk) as [Hk' | ->]; auto.
    + inv_bind H. injection H as <- _. destruct a as [d0 w0].
      eapply IH; eauto.
Qed.

Lemma fetch_sharepoint_lists_keys (e : entry) (lists_data : option json)
  (d : pydict) (w : list json) :
  fetch_sharepoint_lists e lists_data = Ok (d, w) ->
  forall k, In k (map fst d) -> in_str_list k (LISTS_TO_IGNORE e) = false.
Proof.
  unfold fetch_sharepoint_lists. intros H.
  destruct lists_data as [data |]; [| injection H as <- _; intros _ []].
  destruct (negb (truthy data)); [injection H as <- _; intros _ [] |].
  inv_bind H. destruct (negb a); [injection H as <- _; intros _ [] |].
  inv_bind H. inv_bind H.
  eapply process_lists_keys; eauto. intros _ [].
Qed.

Lemma column_relationships_src (n : json) (cols : list column) (rs : list relationship) :
  column_relationships n cols = Ok rs -> forall r, In r rs -> rel_src r = n.
Proof.
  revert rs. induction cols as [| c cols IH]; intros rs H; simpl in H.
  - injection H as <-. intros _ [].
  - destruct (String.eqb (td_type (col_type_details c)) "lookup").
    + destruct (td_details (col_type_details c)); try discriminate.
      inv_bind H. destruct (truthy (obj_get kv "listId" JNull)); injection H as <-.
      * intros r [<- | Hr]; simpl; eauto.
      * eauto.
    + eauto.
Qed.

Lemma build_tables_names (fetch : json -> option json) (d : pydict)
  (ns : list node) (rs : list relationship) :
  build_tables fetch d = Ok (ns, rs) ->
  map node_name ns = map fst d /\ (forall r, In r rs -> In (rel_src r) (map fst d)).
Proof.
  revert ns rs. induction d as [| [n lid] d IH]; intros ns rs H; simpl in H.
  - injection H as <- <-. split; [reflexivity | intros _ []].
  - inv_bind H. inv_bind H. inv_bind H. injection H as <- <-.
    destruct a1 as [ns' rs']. destruct (IH _ _ Ha1) as [Hn Hr]. simpl.
    split; [f_equal; auto |].
    intros r Hin. apply in_app_or in Hin as [Hin | Hin].
    + left. symmetry. eapply column_relationships_src; eauto.
    + right. auto.
Qed.

Lemma process_columns_kept (items : list json) (cs : list column) :
  process_columns items = Ok cs ->
  forall c, In c cs ->
    in_str_list (JStr (col_name c)) COLUMNS_TO_IGNORE = false /\
    COLUMN_PATTERN_TO_IGNORE_matches (col_name c) = false.
Proof.
  revert cs. induction items as [| col items IH]; intros cs H; simpl in H.
  - injection H as <-. intros _ [].
  - destruct col; try discriminate.
    destruct (in_str_list (obj_get kv "name" (JStr "")) COLUMNS_TO_IGNORE) eqn:Eig; [eauto |].
    destruct (obj_get kv "name" (JStr "")) eqn:En; try discriminate.
    destruct (COLUMN_PATTERN_TO_IGNORE_matches s) eqn:Ep; [eauto |].
    inv_bind H. injection H as <-.
    intros c [<- | Hc]; simpl; eauto.
Qed.

Lemma fetch_columns_kept (columns_data : option json) (cs : list column) :
  fetch_columns columns_data = Ok cs ->
  forall c, In c cs ->
    in_str_list (JStr (col_name c)) COLUMNS_TO_IGNORE = false /\
    COLUMN_PATTERN_TO_IGNORE_matches (col_name c) = false.
Proof.
  unfold fetch_columns. intros H.
  destruct columns_data as [data |]; [| injection H as <-; intros _ []].
  destruct (negb (truthy data)); [injection H as <-; intros _ [] |].
  inv_bind H. destruct (negb a); [injection H as <-; intros _ [] |].
  inv_bind H. inv_bind H. eapply process_columns_kept; eauto.
Qed.

Lemma build_tables_rows (fetch : json -> option json) (d : pydict)
  (ns : list node) (rs : list relationship) :
  build_tables fetch d = Ok (ns, rs) ->
  forall nd, In nd ns -> forall row, In row (node_rows nd) ->
    in_str_list (JStr (fst row)) COLUMNS_TO_IGNORE = false /\
    COLUMN_PATTERN_TO_IGNORE_matches (fst row) = false.
Proof.
  revert ns rs. induction d as [| [n lid] d IH]; intros ns rs H; simpl in H.
  - injection H as <- <-. intros _ [].
  - inv_bind H. inv_bind H. inv_bind H. injection H as <- <-.
    destruct a1 as [ns' rs']. intros nd [<- | Hnd]; simpl.
    + intros row Hrow. apply in_map_iff in Hrow. destruct Hrow as [c [<- Hc]].
      eapply fetch_columns_kept; eauto.
    + eapply IH; eauto.
Qed.

Lemma find_target_key (d : pydict) (t n : json) :
  find_target d t = Some n -> In n (map fst d).
Proof.
  induction d as [| [k v] d IH]; simpl; [discriminate |].
  destruct (py_eq v t); [intros H; injection H as <-; auto | auto].
Qed.

Lemma resolve_edges_from (d : pydict) (rels : list relationship) (e : edge) :
  In e (resolve_edges d rels) ->
  (exists r, In r rels /\ edge_src e = rel_src r) /\ In (edge_dst e) (map fst d).
Proof.
  induction rels as [| r rels IH]; simpl; [intros [] |].
  destruct (find_target d (rel_target_id r)) as [tn |] eqn:Ef.
  - destruct (truthy tn).
    + intros [<- | He].
      * simpl. split; [exists r; auto | eapply find_target_key; eauto].
      * destruct (IH He) as [[r' [Hr' Hs]] Hd]. split; eauto.
    + intros He. destruct (IH He) as [[r' [Hr' Hs]] Hd]. split; eauto.
  - intros He. destruct (IH He) as [[r' [Hr' Hs]] Hd]. split; eauto.
Qed.

(** C4: whatever the Metadata Source returns, no node of the assembled graph
    is named after an entry of the entry point's [LISTS_TO_IGNORE]. *)
Theorem pipeline_no_ignored_node (e : entry) (lists_data : option json)
  (fetch : json -> option json) (g : graph) :
  pipeline e lists_data fetch = Ok (Some g) ->
  forall n, In n (LISTS_TO_IGNORE e) ->
  forall nd, In nd (g_nodes g) -> node_name nd <> JStr n.
Proof.
  unfold pipeline. intros H n Hn nd Hnd Heq.
  inv_bind H. destruct a as [d w]. simpl in H.
  assert (Hg : generate_uml_graph fetch d = Ok g).
  { destruct d; [discriminate |]. inv_bind H. injection H as <-. assumption. }
  unfold generate_uml_graph in Hg. inv_bind Hg. injection Hg as <-.
  destruct a as [ns rs]. destruct (build_tables_names _ _ _ _ Ha0) as [Hnames _].
  simpl in Hnd.
  assert (Hin : In (JStr n) (map fst d)).
  { rewrite <- Hnames, <- Heq. apply in_map. assumption. }
  pose proof (fetch_sharepoint_lists_keys _ _ _ _ Ha _ Hin) as Hk.
  apply (in_str_list_str n (LISTS_TO_IGNORE e)) in Hk. contradiction.
Qed.

Lemma pipeline_no_ignored_node_witness :
  ~ In (JStr "Documents") (map node_name (g_nodes scenario_graph)).
Proof.
  intros Hin. apply in_map_iff in Hin. destruct Hin as [nd [Hnd Hin]].
  apply (pipeline_no_ignored_node AppPy scenario_lists scenario_fetch scenario_graph
           ltac:(vm_compute; reflexivity) "Documents" ltac:(simpl; auto) nd Hin Hnd).
Defined.

(** C5: no row of any node label of the assembled graph is a field whose name
    is in [COLUMNS_TO_IGNORE] or matches [".*x003a.*"]. *)
Theorem generate_no_ignored_field (fetch : json -> option json) (lists_dict : pydict)
  (g : graph) :
  generate_uml_graph fetch lists_dict = Ok g ->
  forall nd, In nd (g_nodes g) -> forall row, In row (node_rows nd) ->
    ~ In (fst row) COLUMNS_TO_IGNORE /\ COLUMN_PATTERN_TO_IGNORE_matches (fst row) = false.
Proof.
  unfold generate_uml_graph. intros H nd Hnd row Hrow.
  inv_bind H. injection H as <-. destruct a as [ns rs]. simpl in Hnd.
  destruct (build_tables_rows _ _ _ _ Ha nd Hnd row Hrow) as [H1 H2].
  split; [apply in_str_list_str |]; assumption.
Qed.

Lemma generate_no_ignored_field_witness :
  ~ In "ID" (map fst (node_rows {| node_name := JStr "Orders";
           node_rows := [("Title", "text"); ("CustomerRef", "lookup"); ("ItemRef", "lookup")] |})).
Proof.
  intros Hin. apply in_map_iff in Hin. destruct Hin as [row [Hrow Hin]].
  refine (proj1 (generate_no_ignored_field scenario_fetch scenario_dict scenario_graph
                   ltac:(vm_compute; reflexivity)
                   {| node_name := JStr "Orders";
                      node_rows := [("Title", "text"); ("CustomerRef", "lookup");
                                    ("ItemRef", "lookup")] |}
                   ltac:(simpl; auto) row Hin) _).
  rewrite Hrow. simpl. tauto.
Defined.

(** C10: every edge of an assembled graph goes from a node of the graph to a
    node of the graph. *)
Theorem generate_edges_between_nodes (fetch : json -> option json) (lists_dict : pydict)
  (g : graph) :
  generate_uml_graph fetch lists_dict = Ok g ->
  forall e, In e (g_edges g) ->
    In (edge_src e) (map node_name (g_nodes g)) /\ In (edge_dst e) (map node_name (g_nodes g)).
Proof.
  unfold generate_uml_graph. intros H e He.
  inv_bind H. injection H as <-. destruct a as [ns rs]. simpl in *.
  destruct (build_tables_names _ _ _ _ Ha) as [Hnames Hsrc].
  rewrite Hnames.
  destruct (resolve_edges_from _ _ _ He) as [[r [Hr ->]] Hdst].
  split; auto.
Qed.

Lemma generate_edges_between_nodes_witness :
  In (JStr "Items") (map node_name (g_nodes scenario_graph)).
Proof.
  apply (proj2 (generate_edges_between_nodes scenario_fetch scenario_dict scenario_graph
                  ltac:(vm_compute; reflexivity)
                  {| edge_src := JStr "Orders"; edge_dst := JStr "Items"; edge_label := "ItemRef" |}
                  ltac:(simpl; auto))).
Defined.

(** *** Decomposition of the two loops of [generate_uml_graph] *)

Lemma resolve_edges_app (d : pydict) (rs1 rs2 : list relationship) :
  resolve_edges d (rs1 ++ rs2) = resolve_edges d rs1 ++ resolve_edges d rs2.
Proof.
  induction rs1 as [| r rs1 IH]; simpl; auto.
  destruct (find_target d (rel_target_id r)); [destruct (truthy j) |]; simpl; rewrite ?IH; auto.
Qed.

Lemma find_target_none (d : pydict) (t : json) :
  (forall p, In p d -> py_eq (snd p) t = false) -> find_target d t = None.
Proof.
  induction d as [| [k v] d IH]; simpl; intros H; auto.
  rewrite (H (k, v) (or_introl eq_refl) : py_eq v t = false). apply IH. intros p Hp; apply H; auto.
Qed.

Lemma build_tables_app (fetch : json -> option json) (d1 d2 : pydict) :
  build_tables fetch (d1 ++ d2) =
  (t1 <- build_tables fetch d1 ;;
   t2 <- build_tables fetch d2 ;;
   Ok (fst t1 ++ fst t2, snd t1 ++ snd t2)).
Proof.
  induction d1 as [| [n lid] d1 IH]; simpl.
  - destruct (build_tables fetch d2) as [[ns rs] |]; reflexivity.
  - destruct (fetch_columns (fetch lid)) as [cols |]; simpl; auto.
    destruct (column_relationships n cols) as [rels |]; simpl; auto.
    rewrite IH.
    destruct (build_tables fetch d1) as [[ns1 rs1] |]; simpl; auto.
    destruct (build_tables fetch d2) as [[ns2 rs2] |]; simpl; auto.
    rewrite app_assoc. reflexivity.
Qed.

Lemma build_tables_ext (fetch fetch' : json -> option json) (d : pydict) :
  (forall p, In p d -> fetch' (snd p) = fetch (snd p)) ->
  build_tables fetch' d = build_tables fetch d.
Proof.
  induction d as [| [n lid] d IH]; simpl; intros H; auto.
  rewrite (H (n, lid) (or_introl eq_refl) : fetch' lid = fetch lid).
  rewrite IH; auto.
Qed.

(** C2: a relationship whose target id equals the id of no entry of
    [lists_dict] yields no edge: once the first loop has produced the nodes and
    the relationships, assembly succeeds with the same nodes and exactly the
    edges of the other relationships. *)
Theorem generate_drops_dangling (fetch : json -> option json) (lists_dict : pydict)
  (ns : list node) (rels1 rels2 : list relationship) (r : relationship) :
  build_tables fetch lists_dict = Ok (ns, rels1 ++ r :: rels2) ->
  (forall p, In p lists_dict -> py_eq (snd p) (rel_target_id r) = false) ->
  generate_uml_graph fetch lists_dict =
  Ok {| g_nodes := ns; g_edges := resolve_edges lists_dict rels1 ++ resolve_edges lists_dict rels2 |}.
Proof.
  intros Hb Hnone. unfold generate_uml_graph. rewrite Hb. simpl.
  rewrite resolve_edges_app. simpl. rewrite (find_target_none _ _ Hnone). reflexivity.
Qed.

Lemma generate_drops_dangling_witness :
  generate_uml_graph dangling_fetch scenario_dict =
  Ok {| g_nodes := dangling_nodes;
        g_edges := [{| edge_src := JStr "Orders"; edge_dst := JStr "Customers";
                       edge_label := "CustomerRef" |}] |}.
Proof.
  rewrite (generate_drops_dangling dangling_fetch scenario_dict dangling_nodes
             [customer_rel] [] ghost_rel).
  - reflexivity.
  - vm_compute. reflexivity.
  - intros p Hp. simpl in Hp.
    repeat (destruct Hp as [<- | Hp]; [reflexivity |]). contradiction.
Defined.

Lemma fetch_columns_failed (o : option json) :
  field_listing_failed o -> fetch_columns o = Ok [].
Proof.
  intros [-> | [kv [-> Hv]]]; [reflexivity |].
  unfold fetch_columns. destruct (negb (truthy (JObj kv))); [reflexivity |].
  simpl. rewrite Hv. reflexivity.
Qed.

(** C3: if the field-listing call of one list fails (or returns an object
    without ['value']) while every other call is unchanged, assembly still
    succeeds: that list's node is kept with an empty table, every other node
    is unchanged, and the edges are those of the other lists, unchanged. *)
Theorem generate_failed_listing (fetch fetch' : json -> option json) (pre post : pydict)
  (n lid : json) (g : graph) :
  generate_uml_graph fetch (pre ++ (n, lid) :: post) = Ok g ->
  field_listing_failed (fetch' lid) ->
  (forall x, py_eq x lid = false -> fetch' x = fetch x) ->
  (forall p, In p (pre ++ post) -> py_eq (snd p) lid = false) ->
  exists nsp nd nsq ep en eq,
    g_nodes g = nsp ++ nd :: nsq /\ node_name nd = n /\
    g_edges g = ep ++ en ++ eq /\ (forall e, In e en -> edge_src e = n) /\
    generate_uml_graph fetch' (pre ++ (n, lid) :: post) =
    Ok {| g_nodes := nsp ++ {| node_name := n; node_rows := [] |} :: nsq;
          g_edges := ep ++ eq |}.
Proof.
  intros H Hfail Hsame Hids.
  assert (Hpre : forall p, In p pre -> fetch' (snd p) = fetch (snd p)).
  { intros p Hp. apply Hsame, Hids, in_or_app. auto. }
  assert (Hpost : forall p, In p post -> fetch' (snd p) = fetch (snd p)).
  { intros p Hp. apply Hsame, Hids, in_or_app. auto. }
  unfold generate_uml_graph in *. inv_bind H. injection H as <-.
  rewrite build_tables_app in Ha. inv_bind Ha. inv_bind Ha. injection Ha as <-.
  simpl in Ha1. inv_bind Ha1. inv_bind Ha1. inv_bind Ha1. injection Ha1 as <-.
  rename a0 into t1, a into cols, a2 into rels, a3 into t3.
  exists (fst t1), {| node_name := n; node_rows := map column_row cols |}, (fst t3),
    (resolve_edges (pre ++ (n, lid) :: post) (snd t1)),
    (resolve_edges (pre ++ (n, lid) :: post) rels),
    (resolve_edges (pre ++ (n, lid) :: post) (snd t3)).
  simpl. split; [reflexivity |]. split; [reflexivity |].
  split; [rewrite !resolve_edges_app; reflexivity |]. split.
  - intros e He. destruct (resolve_edges_from _ _ _ He) as [[r [Hr ->]] _].
    eapply column_relationships_src; eauto.
  - rewrite build_tables_app, (build_tables_ext fetch fetch' pre Hpre), Ha0. simpl.
    rewrite (fetch_columns_failed _ Hfail). simpl.
    rewrite (build_tables_ext fetch fetch' post Hpost), Ha3. simpl.
    rewrite resolve_edges_app. reflexivity.
Qed.

Lemma generate_failed_listing_witness :
  exists nsp nd nsq ep en eq,
    g_nodes scenario_graph = nsp ++ nd :: nsq /\ node_name nd = JStr "Customers" /\
    g_edges scenario_graph = ep ++ en ++ eq /\ (forall e, In e en -> edge_src e = JStr "Customers") /\
    generate_uml_graph customers_down_fetch
      ([(JStr "Orders", JStr "o")] ++ (JStr "Customers", JStr "c") :: [(JStr "Items", JStr "i")]) =
    Ok {| g_nodes := nsp ++ {| node_name := JStr "Customers"; node_rows := [] |} :: nsq;
          g_edges := ep ++ eq |}.
Proof.
  apply (generate_failed_listing scenario_fetch customers_down_fetch
           [(JStr "Orders", JStr "o")] [(JStr "Items", JStr "i")]
           (JStr "Customers") (JStr "c") scenario_graph).
  - vm_compute. reflexivity.
  - left. reflexivity.
  - intros x Hx. unfold customers_down_fetch. rewrite Hx. reflexivity.
  - intros p Hp. simpl in Hp.
    repeat (destruct Hp as [<- | Hp]; [reflexivity |]). contradiction.
Defined.

(** *** Malformed descriptors *)

Lemma process_lists_skips_malformed (ign : list string) (d : pydict) (items : list json) :
  process_lists ign d items =
  match process_lists ign d (filter list_item_ok items) with
  | Ok r => Ok (fst r, filter (fun i => negb (list_item_ok i)) items)
  | Err e => Err e
  end.
Proof.
  revert d. induction items as [| item items IH]; intros d; [reflexivity |].
  simpl. destruct (list_item_fields item) as [[dn i] |] eqn:Ef;
    (assert (Eok : list_item_ok item = match list_item_fields item with
                                       | Some _ => true | None => false end)
       by reflexivity); rewrite Ef in Eok; rewrite Eok; simpl.
  - rewrite Ef. destruct (negb (in_str_list dn ign)).
    + destruct (dict_set d dn i) as [d' |]; simpl; auto.
    + apply IH.
  - rewrite IH. destruct (process_lists ign d (filter list_item_ok items)); reflexivity.
Qed.

Lemma in_str_list_empty_name : in_str_list (JStr "") COLUMNS_TO_IGNORE = false.
Proof. reflexivity. Qed.

(** C6 (as the code does it): an item of the list listing that is not an
    object with both ["displayName"] and ["id"] is skipped and reported as a
    warning, and the map is the one built from the well-formed items alone;
    a field descriptor (an object) without a ["name"] key is not skipped: it
    enters the field list under the name [""], without any warning. *)
Theorem malformed_descriptors_handling :
  (forall ign d items,
     process_lists ign d items =
     match process_lists ign d (filter list_item_ok items) with
     | Ok r => Ok (fst r, filter (fun i => negb (list_item_ok i)) items)
     | Err e => Err e
     end) /\
  (forall kv rest,
     obj_has "name" kv = false ->
     process_columns (JObj kv :: rest) =
     (cs <- process_columns rest ;;
      Ok ({| col_name := ""; col_id := obj_get kv "id" JNull;
             col_required := obj_get kv "required" (JBool false);
             col_type_details := get_column_type kv |} :: cs))).
Proof.
  split; [exact process_lists_skips_malformed |].
  intros kv rest Hn. apply obj_has_false in Hn.
  simpl. unfold obj_get at 1 2. rewrite Hn, in_str_list_empty_name. reflexivity.
Qed.

Lemma malformed_descriptors_handling_counterexample :
  obj_has "name" unnamed_text_field = false /\
  fetch_columns (obj_value [JObj unnamed_text_field]) =
  Ok [{| col_name := ""; col_id := JNull; col_required := JBool false;
         col_type_details := {| td_type := "text"; td_details := JObj [] |} |}].
Proof. split; reflexivity. Qed.

Lemma malformed_descriptors_handling_witness :
  process_columns [JObj unnamed_text_field] =
  Ok [{| col_name := ""; col_id := JNull; col_required := JBool false;
         col_type_details := get_column_type unnamed_text_field |}].
Proof.
  rewrite (proj2 malformed_descriptors_handling unnamed_text_field [] ltac:(reflexivity)).
  reflexivity.
Defined.

(** *** Duplicate display names *)

Lemma py_eq_jstr_r (x : json) (n : string) : py_eq x (JStr n) = true -> x = JStr n.
Proof.
  destruct x; simpl; try discriminate. intros H. apply String.eqb_eq in H. subst. reflexivity.
Qed.

Lemma py_eq_jstr_l (x : json) (n : string) : py_eq (JStr n) x = true -> x = JStr n.
Proof.
  destruct x; simpl; try discriminate. intros H. apply String.eqb_eq in H. subst. reflexivity.
Qed.

Lemma dict_get_set_same (d : pydict) (n : string) (v : json) :
  dict_get (dict_set_aux d (JStr n) v) (JStr n) = Some v.
Proof.
  induction d as [| [k' v'] d IH]; simpl.
  - rewrite String.eqb_refl. reflexivity.
  - destruct (py_eq k' (JStr n)) eqn:E; simpl; rewrite ?E; auto.
Qed.

Lemma dict_get_set_other (d : pydict) (k v : json) (n : string) :
  py_eq k (JStr n) = false ->
  dict_get (dict_set_aux d k v) (JStr n) = dict_get d (JStr n).
Proof.
  intros Hk. induction d as [| [k' v'] d IH]; simpl.
  - rewrite Hk. reflexivity.
  - destruct (py_eq k' k) eqn:E; simpl.
    + destruct (py_eq k' (JStr n)) eqn:E'; auto.
      apply py_eq_jstr_r in E'. subst k'. apply py_eq_jstr_l in E. subst k.
      simpl in Hk. rewrite String.eqb_refl in Hk. discriminate.
    + destruct (py_eq k' (JStr n)); auto.
Qed.

Lemma process_lists_app (ign : list string) (d : pydict) (l1 l2 : list json) :
  process_lists ign d (l1 ++ l2) =
  (r1 <- process_lists ign d l1 ;;
   r2 <- process_lists ign (fst r1) l2 ;;
   Ok (fst r2, snd r1 ++ snd r2)).
Proof.
  revert d. induction l1 as [| it l1 IH]; intros d; simpl.
  - destruct (process_lists ign d l2) as [[d2 w2] |]; reflexivity.
  - destruct (list_item_fields it) as [[dn i] |].
    + destruct (negb (in_str_list dn ign)); auto.
      destruct (dict_set d dn i); simpl; auto.
    + rewrite IH. destruct (process_lists ign d l1) as [[d1 w1] |]; simpl; auto.
      destruct (process_lists ign d1 l2) as [[d2 w2] |]; reflexivity.
Qed.

Lemma process_lists_total (ign : list string) (d : pydict) (items : list json) :
  (forall it dn i, In it items -> list_item_fields it = Some (dn, i) -> hashable dn = true) ->
  exists r, process_lists ign d items = Ok r.
Proof.
  revert d. induction items as [| it items IH]; intros d H; simpl; [eauto |].
  assert (H' : forall it' dn i, In it' items -> list_item_fields it' = Some (dn, i) ->
                                hashable dn = true)
    by (intros it' dn i Hin Hf; eapply H; [right |]; eauto).
  destruct (list_item_fields it) as [[dn i] |] eqn:Ef.
  - destruct (negb (in_str_list dn ign)); auto.
    unfold dict_set. rewrite (H it dn i (or_introl eq_refl) Ef). simpl. auto.
  - destruct (IH d H') as [r ->]. simpl. eauto.
Qed.

Lemma process_lists_get_other (ign : list string) (n : string) (items : list json) :
  forall d d' w,
  process_lists ign d items = Ok (d', w) ->
  (forall it dn i, In it items -> list_item_fields it = Some (dn, i) -> py_eq dn (JStr n) = false) ->
  dict_get d' (JStr n) = dict_get d (JStr n).
Proof.
  induction items as [| it items IH]; intros d d' w H Hn; simpl in H.
  - injection H as <- _. reflexivity.
  - assert (Hn' : forall it' dn i, In it' items -> list_item_fields it' = Some (dn, i) ->
                                   py_eq dn (JStr n) = false)
      by (intros it' dn i Hin Hf; eapply Hn; [right |]; eauto).
    destruct (list_item_fields it) as [[dn i] |] eqn:Ef.
    + destruct (negb (in_str_list dn ign)).
      * unfold dict_set in H. destruct (hashable dn); [simpl in H | discriminate].
        rewrite (IH _ _ _ H Hn').
        apply dict_get_set_other. eapply Hn; eauto. left; reflexivity.
      * eapply IH; eauto.
    + inv_bind H. injection H as <- _. destruct a as [d0 w0]. eapply IH; eauto.
Qed.

Lemma in_str_list_not_in (n : string) (lst : list string) :
  ~ In n lst -> in_str_list (JStr n) lst = false.
Proof.
  intros H. unfold in_str_list. apply not_true_iff_false. intros Hex.
  apply existsb_exists in Hex. destruct Hex as [s [Hs Heq]].
  rewrite py_eq_str in Heq. apply String.eqb_eq in Heq. subst. contradiction.
Qed.

Lemma fetch_sharepoint_lists_value (e : entry) (items : list json) :
  fetch_sharepoint_lists e (obj_value items) = process_lists (LISTS_TO_IGNORE e) [] items.
Proof. reflexivity. Qed.

(** C7: when the listing holds two non-ignored lists [a] then [b] with the
    same display name (and no later one), the fetch succeeds and the map
    keeps [b]'s id. *)
Theorem fetch_lists_last_write_wins (e : entry) (items1 items2 items3 : list json)
  (a b : json) (n : string) (ida idb : json) :
  list_item_fields a = Some (JStr n, ida) ->
  list_item_fields b = Some (JStr n, idb) ->
  ~ In n (LISTS_TO_IGNORE e) ->
  (forall it dn i, In it (items1 ++ a :: items2 ++ b :: items3) ->
     list_item_fields it = Some (dn, i) -> hashable dn = true) ->
  (forall it dn i, In it items3 -> list_item_fields it = Some (dn, i) ->
     py_eq dn (JStr n) = false) ->
  exists d w,
    fetch_sharepoint_lists e (obj_value (items1 ++ a :: items2 ++ b :: items3)) = Ok (d, w) /\
    dict_get d (JStr n) = Some idb.
Proof.
  intros Ha Hb Hign Hhash Hlater.
  rewrite fetch_sharepoint_lists_value.
  replace (items1 ++ a :: items2 ++ b :: items3) with ((items1 ++ a :: items2) ++ b :: items3)
    in * by (rewrite <- app_assoc; reflexivity).
  rewrite process_lists_app.
  destruct (process_lists_total (LISTS_TO_IGNORE e) [] (items1 ++ a :: items2)) as [[d1 w1] E1].
  { intros it dn i Hit. apply Hhash. apply in_or_app. auto. }
  rewrite E1. simpl. rewrite Hb, (in_str_list_not_in _ _ Hign). simpl.
  destruct (process_lists_total (LISTS_TO_IGNORE e) (dict_set_aux d1 (JStr n) idb) items3)
    as [[d3 w3] E3].
  { intros it dn i Hit. apply Hhash. apply in_or_app. right. right. auto. }
  rewrite E3. simpl. exists d3, (w1 ++ w3). split; [reflexivity |].
  rewrite (process_lists_get_other _ _ _ _ _ _ E3 Hlater). apply dict_get_set_same.
Qed.

Lemma fetch_lists_last_write_wins_witness :
  exists d w,
    fetch_sharepoint_lists MainPy (obj_value ([] ++ list_item "Tasks" "t1" ::
        [list_item "Orders" "o"] ++ list_item "Tasks" "t2" :: [JStr "junk"])) = Ok (d, w) /\
    dict_get d (JStr "Tasks") = Some (JStr "t2").
Proof.
  apply (fetch_lists_last_write_wins MainPy [] [list_item "Orders" "o"] [JStr "junk"]
           (list_item "Tasks" "t1") (list_item "Tasks" "t2") "Tasks" (JStr "t1") (JStr "t2")).
  - reflexivity.
  - reflexivity.
  - simpl. intros H. repeat destruct H as [H | H]; discriminate || contradiction.
  - intros it dn i Hit Hf. simpl in Hit.
    repeat (destruct Hit as [<- | Hit]; [injection Hf as <- _; reflexivity |]).
    destruct Hit as [<- | []]. discriminate.
  - intros it dn i Hit Hf. destruct Hit as [<- | []]. discriminate.
Defined.

(** *** Edges towards a list with a falsy name *)

(** C8 (divergence): the lookup [CustomerRef] of [Orders] resolves to the
    retained list named [""], whose node exists, yet no edge is emitted,
    because [if target_table:] tests the name's truthiness. *)
Theorem generate_drops_edge_to_empty_name :
  find_target empty_name_dict (JStr "c") = Some (JStr "") /\
  generate_uml_graph scenario_fetch empty_name_dict =
  Ok {| g_nodes := [{| node_name := JStr "Orders";
                       node_rows := [("Title", "text"); ("CustomerRef", "lookup");
                                     ("ItemRef", "lookup")] |};
                    {| node_name := JStr ""; node_rows := [("Name", "text")] |}];
        g_edges := [] |}.
Proof. split; reflexivity. Qed.

(** ** Further properties of the code *)

(** [main] stops without writing a graph when the lists request fails: a
    transport failure, an error status (400 to 599, such as 401 for an
    expired token) or a body that is not JSON. *)
Theorem main_lists_request_failed (http : string -> headers -> http_outcome)
  (cols_http : string -> headers -> json -> http_outcome) (token site_id : string) :
  (http (lists_endpoint site_id) (create_headers token) = HttpFailure \/
   (exists status body, http (lists_endpoint site_id) (create_headers token) =
                        HttpResponse status body /\ (400 <= status < 600)%Z) \/
   (exists status, http (lists_endpoint site_id) (create_headers token) =
                   HttpResponse status None)) ->
  main_py http cols_http token site_id = MainNoLists.
Proof.
  intros Hfail.
  assert (Hnone : fetch_data (http (lists_endpoint site_id) (create_headers token)) = None).
  { destruct Hfail as [-> | [[status [body [-> Hs]]] | [status ->]]]; simpl; auto.
    - replace ((400 <=? status)%Z && (status <? 600)%Z) with true; [reflexivity |].
      symmetry. apply andb_true_intro. split; [apply Z.leb_le | apply Z.ltb_lt]; lia.
    - destruct ((400 <=? status)%Z && (status <? 600)%Z); reflexivity. }
  unfold main_py, fetch_sharepoint_lists_call. simpl. rewrite Hnone. reflexivity.
Qed.

Lemma main_lists_request_failed_witness :
  main_py (fun _ _ => HttpResponse 401 (Some (JObj [("error", JStr "InvalidAuthenticationToken")])))
          (fun _ _ _ => HttpFailure) "expired" "site" = MainNoLists.
Proof.
  apply main_lists_request_failed. right. left.
  exists 401%Z, (Some (JObj [("error", JStr "InvalidAuthenticationToken")])).
  split; [reflexivity | lia].
Defined.

(** A POST to [index] whose lists request fails leaves the session as it
    was (a graph input stored by an earlier successful POST stays in place),
    flashes "No SharePoint lists found or authentication failed." and
    redirects to [index]. *)
Theorem index_failed_request_keeps_session (codec : pydict -> pydict)
  (http : string -> headers -> http_outcome) (form : list (string * string))
  (st : app_state) (token site_id : string) :
  form_get form "token" = Some token ->
  form_get form "site_id" = Some site_id ->
  fetch_data (http (lists_endpoint site_id) (create_headers token)) = None ->
  st_session (fst (index_post codec http form st)) = st_session st /\
  st_flashes (fst (index_post codec http form st)) =
    st_flashes st ++ [FlashText "No SharePoint lists found or authentication failed."] /\
  snd (index_post codec http form st) = RedirectTo "index".
Proof.
  intros Ht Hs Hnone. unfold index_post, fetch_sharepoint_lists_call.
  rewrite Ht, Hs. simpl. rewrite Hnone. simpl. auto.
Qed.

Lemma index_failed_request_keeps_session_witness :
  let st := {| st_session := {| s_graph_input := Some (scenario_dict, create_headers "old", lists_endpoint "s");
                                s_token := Some "old"; s_site_id := Some "s" |};
               st_flashes := [] |} in
  st_session (fst (index_post (fun d => d) (fun _ _ => HttpFailure)
                     [("token", "new"); ("site_id", "s")] st)) = st_session st.
Proof.
  intros st.
  apply (index_failed_request_keeps_session (fun d => d) (fun _ _ => HttpFailure)
           [("token", "new"); ("site_id", "s")] st "new" "s"); reflexivity.
Defined.

Lemma process_lists_all_ignored (ign : list string) (d : pydict) (items : list json) :
  (forall it dn i, In it items -> list_item_fields it = Some (dn, i) -> in_str_list dn ign = true) ->
  exists w, process_lists ign d items = Ok (d, w).
Proof.
  induction items as [| it items IH]; intros H; simpl; [eauto |].
  assert (H' : forall it' dn i, In it' items -> list_item_fields it' = Some (dn, i) ->
                                in_str_list dn ign = true)
    by (intros it' dn i Hin Hf; eapply H; [right |]; eauto).
  destruct (list_item_fields it) as [[dn i] |] eqn:Ef.
  - rewrite (H it dn i (or_introl eq_refl) Ef). simpl. auto.
  - destruct (IH H') as [w ->]. simpl. eauto.
Qed.

(** When every well-formed collection of the listing is in [LISTS_TO_IGNORE]
    (or there is none), [main] writes no graph. *)
Theorem main_only_ignored_lists (http : string -> headers -> http_outcome)
  (cols_http : string -> headers -> json -> http_outcome) (token site_id : string)
  (items : list json) :
  fetch_data (http (lists_endpoint site_id) (create_headers token)) = obj_value items ->
  (forall it dn i, In it items -> list_item_fields it = Some (dn, i) ->
     in_str_list dn (LISTS_TO_IGNORE MainPy) = true) ->
  main_py http cols_http token site_id = MainNoLists.
Proof.
  intros Hdata Hign. unfold main_py, fetch_sharepoint_lists_call. simpl.
  rewrite Hdata, fetch_sharepoint_lists_value.
  destruct (process_lists_all_ignored _ [] _ Hign) as [w ->]. reflexivity.
Qed.

Lemma main_only_ignored_lists_witness :
  main_py (fun _ _ => HttpResponse 200 (obj_value [list_item "Documents" "d";
                                                   list_item "Web Template Extensions" "w";
                                                   JStr "junk"]))
          (fun _ _ _ => HttpFailure) "tok" "site" = MainNoLists.
Proof.
  apply (main_only_ignored_lists _ _ "tok" "site"
           [list_item "Documents" "d"; list_item "Web Template Extensions" "w"; JStr "junk"]).
  - reflexivity.
  - intros it dn i Hit Hf. simpl in Hit.
    repeat (destruct Hit as [<- | Hit]; [injection Hf as <- _; reflexivity |]).
    destruct Hit as [<- | []]. discriminate.
Defined.

(** Building the map of lists raises exactly when some well-formed,
    non-ignored item has a display name that cannot be a dict key (a JSON
    array or object); malformed and ignored items never make it fail. *)
Theorem process_lists_ok_iff (ign : list string) (d : pydict) (items : list json) :
  (exists r, process_lists ign d items = Ok r) <->
  (forall it dn i, In it items -> list_item_fields it = Some (dn, i) ->
     in_str_list dn ign = false -> hashable dn = true).
Proof.
  revert d. induction items as [| it items IH]; intros d; simpl.
  - split; [intros _ it dn i [] | eauto].
  - destruct (list_item_fields it) as [[dn i] |] eqn:Ef.
    + destruct (in_str_list dn ign) eqn:Eig; simpl.
      * rewrite IH. split.
        -- intros H it' dn' i' [<- | Hin] Hf Hn; [congruence | eauto].
        -- intros H it' dn' i' Hin Hf Hn. eapply H; eauto.
      * unfold dict_set. destruct (hashable dn) eqn:Eh; simpl.
        -- rewrite IH. split.
           ++ intros H it' dn' i' [<- | Hin] Hf Hn; [congruence | eauto].
           ++ intros H it' dn' i' Hin Hf Hn. eapply H; eauto.
        -- split; [intros [r Hr]; discriminate |].
           intros H. rewrite (H it dn i (or_introl eq_refl) Ef Eig) in Eh. discriminate.
    + split.
      * intros [r Hr]. destruct (process_lists ign d items) as [r' |] eqn:E; [| discriminate].
        assert (Hex : exists r, process_lists ign d items = Ok r) by eauto.
        pose proof (proj1 (IH d) Hex) as Hall. intros it' dn' i' [<- | Hin] Hf Hn; [congruence | eapply Hall; eauto].
      * intros H. destruct (proj2 (IH d)) as [r ->].
        -- intros it' dn' i' Hin Hf Hn. eapply H; eauto.
        -- simpl. eauto.
Qed.

Lemma process_lists_ok_iff_witness :
  process_lists (LISTS_TO_IGNORE AppPy) []
    [JObj [("displayName", JList []); ("id", JStr "x")]] = Err TypeError /\
  ~ (forall it dn i, In it [JObj [("displayName", JList []); ("id", JStr "x")]] ->
       list_item_fields it = Some (dn, i) ->
       in_str_list dn (LISTS_TO_IGNORE AppPy) = false -> hashable dn = true).
Proof.
  split; [reflexivity |].
  intros H. destruct (proj2 (process_lists_ok_iff _ [] _) H) as [r Hr]. discriminate.
Defined.

Lemma dict_set_aux_key_list (d : pydict) (k v : json) :
  map fst (dict_set_aux d k v) =
  if existsb (fun k' => py_eq k' k) (map fst d) then map fst d else map fst d ++ [k].
Proof.
  induction d as [| [k' v'] d IH]; simpl; [reflexivity |].
  destruct (py_eq k' k); simpl; [reflexivity |].
  rewrite IH. destruct (existsb (fun k'0 => py_eq k'0 k) (map fst d)); reflexivity.
Qed.

Lemma ForallOrdPairs_snoc {A} (R : A -> A -> Prop) (l : list A) (x : A) :
  ForallOrdPairs R l -> (forall y, In y l -> R y x) -> ForallOrdPairs R (l ++ [x]).
Proof.
  induction 1 as [| a l Ha Hl IH]; intros Hx; simpl.
  - constructor; constructor.
  - constructor.
    + apply Forall_app. split; [assumption |]. constructor; [apply Hx; left; reflexivity | constructor].
    + apply IH. intros y Hy. apply Hx. right. assumption.
Qed.

Lemma process_lists_distinct (ign : list string) (d : pydict) (items : list json)
  (d' : pydict) (w : list json) :
  process_lists ign d items = Ok (d', w) ->
  ForallOrdPairs (fun a b => py_eq a b = false) (map fst d) ->
  ForallOrdPairs (fun a b => py_eq a b = false) (map fst d').
Proof.
  revert d w. induction items as [| item items IH]; intros d w H Hd; simpl in H.
  - injection H as <- <-. assumption.
  - destruct (list_item_fields item) as [[dn i] |].
    + destruct (in_str_list dn ign); simpl in H.
      * eapply IH; eauto.
      * inv_bind H. unfold dict_set in Ha.
        destruct (hashable dn); [injection Ha as <- | discriminate].
        eapply IH; eauto. rewrite dict_set_aux_key_list.
        destruct (existsb (fun k' => py_eq k' dn) (map fst d)) eqn:Ex; [assumption |].
        apply ForallOrdPairs_snoc; [assumption |].
        intros y Hy. apply not_true_iff_false. intros Heq.
        assert (Htrue : existsb (fun k' => py_eq k' dn) (map fst d) = true)
          by (apply existsb_exists; eauto).
        congruence.
    + inv_bind H. injection H as <- _. destruct a as [d0 w0]. eapply IH; eauto.
Qed.

Lemma fetch_sharepoint_lists_distinct (e : entry) (lists_data : option json)
  (d : pydict) (w : list json) :
  fetch_sharepoint_lists e lists_data = Ok (d, w) ->
  ForallOrdPairs (fun a b => py_eq a b = false) (map fst d).
Proof.
  unfold fetch_sharepoint_lists. intros H.
  destruct lists_data as [data |]; [| injection H as <- _; constructor].
  destruct (negb (truthy data)); [injection H as <- _; constructor |].
  inv_bind H. destruct (negb a); [injection H as <- _; constructor |].
  inv_bind H. inv_bind H.
  eapply process_lists_distinct; eauto. constructor.
Qed.

(** Whatever the Metadata Source returns, no two nodes of the assembled graph
    carry equal names (equality as Python's [==]): the map of lists is a dict,
    and a repeated display name overwrites instead of adding a second node. *)
Theorem pipeline_distinct_node_names (e : entry) (lists_data : option json)
  (fetch : json -> option json) (g : graph) :
  pipeline e lists_data fetch = Ok (Some g) ->
  ForallOrdPairs (fun a b => py_eq a b = false) (map node_name (g_nodes g)).
Proof.
  unfold pipeline. intros H.
  inv_bind H. destruct a as [d w]. simpl in H.
  assert (Hg : generate_uml_graph fetch d = Ok g).
  { destruct d; [discriminate |]. inv_bind H. injection H as <-. assumption. }
  unfold generate_uml_graph in Hg. inv_bind Hg. injection Hg as <-.
  destruct a as [ns rs]. simpl.
  rewrite (proj1 (build_tables_names _ _ _ _ Ha0)).
  eapply fetch_sharepoint_lists_distinct; eauto.
Qed.

Lemma pipeline_distinct_node_names_witness :
  pipeline AppPy (obj_value [list_item "Orders" "o1"; list_item "Orders" "o2";
                             list_item "Customers" "c"]) scenario_fetch =
    Ok (Some {| g_nodes := [{| node_name := JStr "Orders"; node_rows := [] |};
                            {| node_name := JStr "Customers";
                               node_rows := [("Name", "text")] |}];
                g_edges := [] |}) /\
  ForallOrdPairs (fun a b => py_eq a b = false) [JStr "Orders"; JStr "Customers"].
Proof.
  split; [reflexivity |].
  apply (pipeline_distinct_node_names AppPy
           (obj_value [list_item "Orders" "o1"; list_item "Orders" "o2"; list_item "Customers" "c"])
           scenario_fetch
           {| g_nodes := [{| node_name := JStr "Orders"; node_rows := [] |};
                          {| node_name := JStr "Customers"; node_rows := [("Name", "text")] |}];
              g_edges := [] |}).
  reflexivity.
Defined.

Lemma dict_set_aux_keeps (d : pydict) (k v x : json) :
  In x (map fst d) -> In x (map fst (dict_set_aux d k v)).
Proof.
  induction d as [| [k' v'] d IH]; simpl; [intros [] |].
  destruct (py_eq k' k); simpl; intros [<- | Hx]; auto.
Qed.

Lemma dict_set_aux_adds (d : pydict) (n : string) (v : json) :
  In (JStr n) (map fst (dict_set_aux d (JStr n) v)).
Proof.
  induction d as [| [k' v'] d IH]; simpl; [auto |].
  destruct (py_eq k' (JStr n)) eqn:E; simpl.
  - left. apply (py_eq_jstr_r _ _ E).
  - right. assumption.
Qed.

Lemma process_lists_keeps_keys (ign : list string) (d : pydict) (items : list json)
  (d' : pydict) (w : list json) (x : json) :
  process_lists ign d items = Ok (d', w) -> In x (map fst d) -> In x (map fst d').
Proof.
  revert d w. induction items as [| item items IH]; intros d w H Hx; simpl in H.
  - injection H as <- <-. assumption.
  - destruct (list_item_fields item) as [[dn i] |].
    + destruct (in_str_list dn ign); simpl in H.
      * eapply IH; eauto.
      * inv_bind H. unfold dict_set in Ha.
        destruct (hashable dn); [injection Ha as <- | discriminate].
        eapply IH; eauto. apply dict_set_aux_keeps. assumption.
    + inv_bind H. injection H as <- _. destruct a as [d0 w0]. eapply IH; eauto.
Qed.

Lemma process_lists_adds_key (ign : list string) (d : pydict) (items : list json)
  (d' : pydict) (w : list json) (it : json) (n : string) (i : json) :
  process_lists ign d items = Ok (d', w) -> In it items ->
  list_item_fields it = Some (JStr n, i) -> in_str_list (JStr n) ign = false ->
  In (JStr n) (map fst d').
Proof.
  revert d w. induction items as [| item items IH]; intros d w H Hit Hf Hn; simpl in H;
    [destruct Hit |].
  destruct Hit as [<- | Hit].
  - rewrite Hf, Hn in H. simpl in H.
    eapply process_lists_keeps_keys; eauto. apply dict_set_aux_adds.
  - destruct (list_item_fields item) as [[dn i'] |].
    + destruct (in_str_list dn ign); simpl in H.
      * eapply IH; eauto.
      * inv_bind H. eapply IH; eauto.
    + inv_bind H. injection H as <- _. destruct a as [d0 w0]. eapply IH; eauto.
Qed.

(** Every well-formed item of the listing whose display name is a string not
    in [LISTS_TO_IGNORE] gets a node of that name in the assembled graph. *)
Theorem pipeline_every_list_has_node (e : entry) (items : list json)
  (fetch : json -> option json) (g : graph) (it : json) (n : string) (i : json) :
  pipeline e (obj_value items) fetch = Ok (Some g) ->
  In it items -> list_item_fields it = Some (JStr n, i) -> ~ In n (LISTS_TO_IGNORE e) ->
  In (JStr n) (map node_name (g_nodes g)).
Proof.
  unfold pipeline. rewrite fetch_sharepoint_lists_value. intros H Hit Hf Hn.
  inv_bind H. destruct a as [d w]. simpl in H.
  assert (Hg : generate_uml_graph fetch d = Ok g).
  { destruct d; [discriminate |]. inv_bind H. injection H as <-. assumption. }
  unfold generate_uml_graph in Hg. inv_bind Hg. injection Hg as <-.
  destruct a as [ns rs]. simpl.
  rewrite (proj1 (build_tables_names _ _ _ _ Ha0)).
  eapply process_lists_adds_key; eauto. apply in_str_list_not_in. assumption.
Qed.

Lemma pipeline_every_list_has_node_witness :
  In (JStr "Customers") (map node_name (g_nodes scenario_graph)).
Proof.
  apply (pipeline_every_list_has_node AppPy
           [list_item "Orders" "o"; list_item "Customers" "c"; list_item "Items" "i"; JStr "junk"]
           scenario_fetch scenario_graph (list_item "Customers" "c") "Customers" (JStr "c")).
  - reflexivity.
  - simpl. auto.
  - reflexivity.
  - simpl. intros H. repeat (destruct H as [H | H]; [discriminate |]). exact H.
Defined.

Lemma in_str_list_true_str (x : json) (lst : list string) :
  in_str_list x lst = true -> exists s, x = JStr s.
Proof.
  unfold in_str_list. intros H. apply existsb_exists in H. destruct H as [s [_ Hs]].
  exists s. apply py_eq_jstr_r. assumption.
Qed.

(** The field loop of [fetch_columns] raises exactly when some field
    descriptor is not a dict or has a ["name"] that is not a string (an
    absent name counts as [""]); otherwise it returns a field list. *)
Theorem process_columns_ok_iff (items : list json) :
  (exists cs, process_columns items = Ok cs) <->
  Forall (fun col => exists kv s, col = JObj kv /\ obj_get kv "name" (JStr "") = JStr s) items.
Proof.
  induction items as [| col items IH]; simpl.
  - split; [intros _; constructor | eauto].
  - split.
    + intros [cs H]. destruct col as [| | | | | kv]; try discriminate.
      destruct (in_str_list (obj_get kv "name" (JStr "")) COLUMNS_TO_IGNORE) eqn:Eig.
      * destruct (in_str_list_true_str _ _ Eig) as [s Hs].
        constructor; [eauto | apply IH; eauto].
      * destruct (obj_get kv "name" (JStr "")) as [| | | s | |] eqn:En; try discriminate.
        constructor; [eauto |]. apply IH.
        destruct (COLUMN_PATTERN_TO_IGNORE_matches s); [eauto |].
        inv_bind H. eauto.
    + intros Hall. inversion Hall as [| ? ? [kv [s [-> Hs]]] Hrest]; subst.
      destruct (proj2 IH Hrest) as [cs Hcs].
      rewrite Hs. destruct (in_str_list (JStr s) COLUMNS_TO_IGNORE); [eauto |].
      destruct (COLUMN_PATTERN_TO_IGNORE_matches s); [eauto |].
      rewrite Hcs. simpl. eauto.
Qed.

Lemma process_columns_ok_iff_witness :
  process_columns [text_field "Title"; JObj [("name", JNum 7)]] = Err TypeError /\
  ~ Forall (fun col => exists kv s, col = JObj kv /\ obj_get kv "name" (JStr "") = JStr s)
      [text_field "Title"; JObj [("name", JNum 7)]].
Proof.
  split; [reflexivity |].
  intros H. destruct (proj2 (process_columns_ok_iff _) H) as [cs Hcs]. discriminate.
Defined.

(** The field loop of [fetch_columns] treats each descriptor on its own and
    keeps the source's order: the fields of a concatenated payload are the
    fields of the first part followed by those of the second, and an
    exception in the first part is raised before the second is looked at. *)
Theorem process_columns_app (l1 l2 : list json) :
  process_columns (l1 ++ l2) =
  (c1 <- process_columns l1 ;; c2 <- process_columns l2 ;; Ok (c1 ++ c2)).
Proof.
  induction l1 as [| col l1 IH]; simpl.
  - destruct (process_columns l2); reflexivity.
  - destruct col as [| | | | | kv]; try reflexivity.
    destruct (in_str_list (obj_get kv "name" (JStr "")) COLUMNS_TO_IGNORE); [exact IH |].
    destruct (obj_get kv "name" (JStr "")) as [| | | s | |]; try reflexivity.
    destruct (COLUMN_PATTERN_TO_IGNORE_matches s); [exact IH |].
    rewrite IH. destruct (process_columns l1) as [c1 |]; simpl; [| reflexivity].
    destruct (process_columns l2); reflexivity.
Qed.

Lemma build_tables_each (fetch : json -> option json) (d : pydict) (t : list node * list relationship)
  (n lid : json) :
  build_tables fetch d = Ok t -> In (n, lid) d ->
  exists cols rs, fetch_columns (fetch lid) = Ok cols /\ column_relationships n cols = Ok rs.
Proof.
  revert t. induction d as [| [n' lid'] d IH]; intros t H Hin; simpl in H; [destruct Hin |].
  inv_bind H. inv_bind H. inv_bind H.
  destruct Hin as [Heq | Hin].
  - injection Heq as <- <-. eauto.
  - eapply IH; eauto.
Qed.

Lemma column_relationships_lookup_obj (n : json) (cols : list column) (rs : list relationship)
  (c : column) :
  column_relationships n cols = Ok rs -> In c cols ->
  td_type (col_type_details c) = "lookup" ->
  exists kv, td_details (col_type_details c) = JObj kv.
Proof.
  revert rs. induction cols as [| c' cols IH]; intros rs H Hin Hl; simpl in H; [destruct Hin |].
  destruct Hin as [-> | Hin].
  - rewrite Hl in H. simpl in H. destruct (td_details (col_type_details c)); try discriminate. eauto.
  - destruct (String.eqb (td_type (col_type_details c')) "lookup").
    + destruct (td_details (col_type_details c')); try discriminate.
      inv_bind H. eauto.
    + eauto.
Qed.

(** A field of some list of the map that is classified as a lookup but whose
    ["lookup"] value is not a dict (for instance [null]) makes
    [generate_uml_graph] raise: no graph is produced at all. *)
Theorem generate_lookup_without_details_raises (fetch : json -> option json) (d : pydict)
  (n lid : json) (cols : list column) (c : column) :
  In (n, lid) d -> fetch_columns (fetch lid) = Ok cols -> In c cols ->
  td_type (col_type_details c) = "lookup" ->
  (forall kv, td_details (col_type_details c) <> JObj kv) ->
  forall g, generate_uml_graph fetch d <> Ok g.
Proof.
  intros Hin Hf Hc Hl Hd g Hg. unfold generate_uml_graph in Hg. inv_bind Hg.
  destruct (build_tables_each _ _ _ _ _ Ha Hin) as [cols' [rs [Hf' Hr]]].
  rewrite Hf in Hf'. injection Hf' as <-.
  destruct (column_relationships_lookup_obj _ _ _ _ Hr Hc Hl) as [kv Hkv].
  exact (Hd kv Hkv).
Qed.

Lemma generate_lookup_without_details_raises_witness :
  generate_uml_graph (fun _ => obj_value [JObj [("name", JStr "Ref"); ("lookup", JNull)]])
    [(JStr "Orders", JStr "o")] = Err AttributeError /\
  forall g, generate_uml_graph (fun _ => obj_value [JObj [("name", JStr "Ref"); ("lookup", JNull)]])
              [(JStr "Orders", JStr "o")] <> Ok g.
Proof.
  split; [reflexivity |].
  apply (generate_lookup_without_details_raises _ _ (JStr "Orders") (JStr "o")
           [{| col_name := "Ref"; col_id := JNull; col_required := JBool false;
               col_type_details := {| td_type := "lookup"; td_details := JNull |} |}]
           {| col_name := "Ref"; col_id := JNull; col_required := JBool false;
              col_type_details := {| td_type := "lookup"; td_details := JNull |} |}).
  - left. reflexivity.
  - reflexivity.
  - left. reflexivity.
  - reflexivity.
  - intros kv. discriminate.
Defined.

(** The relationships of one list: the inner loop raises [AttributeError]
    exactly when a lookup field has details that are not a dict; otherwise it
    yields, in field order, one relationship per lookup field whose
    ["listId"] is truthy, and none for the other fields. *)
Theorem column_relationships_spec (n : json) (cols : list column) :
  column_relationships n cols =
  if forallb (fun c => negb (String.eqb (td_type (col_type_details c)) "lookup") ||
                       match td_details (col_type_details c) with JObj _ => true | _ => false end)
             cols
  then Ok (map (fun c => {| rel_src := n; rel_target_id := lookup_list_id c;
                            rel_field := col_name c |})
               (filter (fun c => String.eqb (td_type (col_type_details c)) "lookup" &&
                                 truthy (lookup_list_id c)) cols))
  else Err AttributeError.
Proof.
  induction cols as [| c cols IH]; simpl; [reflexivity |].
  destruct (String.eqb (td_type (col_type_details c)) "lookup"); simpl; [| exact IH].
  destruct (td_details (col_type_details c)) as [| | | | | kv] eqn:Ed; simpl; try reflexivity.
  assert (Hl : lookup_list_id c = obj_get kv "listId" JNull)
    by (unfold lookup_list_id; rewrite Ed; reflexivity).
  rewrite Hl, IH. destruct (forallb _ cols); simpl; [| reflexivity].
  destruct (truthy (obj_get kv "listId" JNull)); simpl; rewrite ?Hl; reflexivity.
Qed.



(** When every display name of the map is truthy, the second loop of
    [generate_uml_graph] emits, in relationship order, exactly one edge per
    relationship whose target id is the id of some list, to the first such
    list, and drops the others. *)
Theorem resolve_edges_truthy_names (d : pydict) (rels : list relationship) :
  (forall k, In k (map fst d) -> truthy k = true) ->
  resolve_edges d rels =
  flat_map (fun r => match find_target d (rel_target_id r) with
                     | Some t => [{| edge_src := rel_src r; edge_dst := t; edge_label := rel_field r |}]
                     | None => []
                     end) rels.
Proof.
  intros Hk. induction rels as [| r rels IH]; simpl; [reflexivity |].
  destruct (find_target d (rel_target_id r)) as [t |] eqn:Ef; [| exact IH].
  rewrite (Hk t (find_target_key _ _ _ Ef)). simpl. f_equal. exact IH.
Qed.

Lemma resolve_edges_truthy_names_witness :
  resolve_edges scenario_dict [customer_rel; ghost_rel] =
  [{| edge_src := rel_src customer_rel; edge_dst := JStr "Customers";
      edge_label := rel_field customer_rel |}].
Proof.
  rewrite (resolve_edges_truthy_names scenario_dict [customer_rel; ghost_rel]).
  - reflexivity.
  - simpl. intros k [<- | [<- | [<- | []]]]; reflexivity.
Defined.
